(** * iot-neopixel-homebridge: the light-bulb accessory handlers

    A shallow embedding of [src/platformAccessory.ts]: the four HomeKit
    handlers [setOn], [getOn], [setBrightness] and [getBrightness] of
    [LightBulbPlatformAccessory], which translate between HomeKit values and
    the AWS IoT thing shadow of the lamp.

    The file has three parts: the fragment of ECMAScript the handlers rely on
    (IEEE 754 doubles, [Math.round], the coercions behind [||], [/] and
    [===], [JSON.stringify]); the handlers themselves, written in a small
    monad that records the calls made to the transport; and the properties
    of the handlers. *)

From Stdlib Require Import ZArith List String Ascii Bool Lia DecimalString.
From Stdlib Require Import Floats.SpecFloat.
Import ListNotations.

Local Open Scope string_scope.
Local Open Scope Z_scope.

(** ** ECMAScript numbers *)

Module JS.

(** A Number is an IEEE 754 binary64 value: 53 bits of precision, exponents
    below 1024. The Numbers are the values of [spec_float] in canonical form
    ([valid_binary]), which is the form all the operations below return. *)
Definition float : Type := spec_float.
Definition prec : Z := 53.
Definition emax : Z := 1024.

Definition NaN : float := S754_nan.

(** The Number closest to an integer (exact below 2^53). *)
Definition of_Z (z : Z) : float := binary_normalize prec emax z 0 false.

(** The Number closest to the rational [num / den] ([den] positive), the
    sign given apart so that a zero keeps it. *)
Definition of_Q (neg : bool) (num den : positive) : float :=
  SFdiv prec emax (S754_finite neg num 0) (S754_finite false den 0).

(** The operators [/] and [*] on Numbers, [<=] and equality of Numbers. *)
Definition div (x y : float) : float := SFdiv prec emax x y.
Definition mul (x y : float) : float := SFmul prec emax x y.
Definition leb (x y : float) : bool := SFleb x y.

Definition float_eqb (x y : float) : bool :=
  match x, y with
  | S754_zero s, S754_zero t => Bool.eqb s t
  | S754_infinity s, S754_infinity t => Bool.eqb s t
  | S754_nan, S754_nan => true
  | S754_finite s m e, S754_finite t n f =>
      Bool.eqb s t && Pos.eqb m n && Z.eqb e f
  | _, _ => false
  end.

(** [Math.round]: the integral Number closest to [x], a tie going to the one
    closer to +Infinity; an integral [x], a zero, an infinity and NaN are
    returned as they are, and an [x] in [-0.5, 0) gives -0. *)
Definition Math_round (x : float) : float :=
  match x with
  | S754_finite s m e =>
      if 0 <=? e then x
      else
        let den := 2 ^ (- e) in
        let num := if s then Z.neg m else Z.pos m in
        let r := (2 * num + den) / (2 * den) in
        if r =? 0 then S754_zero s else of_Z r
  | _ => x
  end.

(** ** ECMAScript strings

    Strings are kept in their UTF-8 encoding, one [ascii] per byte; the
    handlers only compare and print ASCII text. *)

Definition chars (s : string) : list ascii := list_ascii_of_string s.
Definition text (cs : list ascii) : string := string_of_list_ascii cs.
Definition bytes (ns : list nat) : list ascii := map ascii_of_nat ns.
Definition code (c : ascii) : Z := Z.of_nat (nat_of_ascii c).

Definition dquote : string := text (bytes [34%nat]).
Definition backslash : string := text (bytes [92%nat]).

(** Decimal digits of a natural number, without leading zeros. *)
Definition decimal (z : Z) : string :=
  NilZero.string_of_uint (N.to_uint (Z.to_N z)).

Fixpoint zeros (n : nat) : string :=
  match n with O => EmptyString | S n' => String "0" (zeros n') end.

Definition take (n : Z) (s : string) : string := substring 0 (Z.to_nat n) s.
Definition drop (n : Z) (s : string) : string :=
  substring (Z.to_nat n) (String.length s - Z.to_nat n) s.

(** ** Number::toString

    The digits are those of the shortest decimal [s * 10^(n-k)] ([k] digits)
    that reads back as the Number, the closest to it when several do. All
    comparisons are exact: a Number [m * 2^e] is held in units of [2^(e-2)],
    where its neighbours' half-way points are integers. *)

(** [s * 10^t] compared with [l * 2^g]. *)
Definition compare_dec_bin (s t l g : Z) : comparison :=
  Z.compare (s * 10 ^ Z.max t 0 * 2 ^ Z.max (- g) 0)
            (l * 10 ^ Z.max (- t) 0 * 2 ^ Z.max g 0).

(** Whether [s * 10^t] rounds to [m * 2^e] (round to nearest, ties to even). *)
Definition reads_back (m e s t : Z) : bool :=
  let g := e - 2 in
  let low := if (m =? 2 ^ (prec - 1)) && (3 - emax - prec <? e)
             then 4 * m - 1 else 4 * m - 2 in
  let high := 4 * m + 2 in
  match compare_dec_bin s t low g with
  | Lt => false
  | Eq => Z.even m
  | Gt => match compare_dec_bin s t high g with
          | Lt => true
          | Eq => Z.even m
          | Gt => false
          end
  end.

(** The [n] with [10^(n-1) <= m * 2^e < 10^n]: searched downwards from
    [n], which is to be at least that large. *)
Fixpoint magnitude_from (fuel : nat) (n m e : Z) : Z :=
  match fuel with
  | O => n
  | S fuel' =>
      match compare_dec_bin 1 (n - 1) (4 * m) (e - 2) with
      | Gt => magnitude_from fuel' (n - 1) m e
      | _ => n
      end
  end.

(** As [m * 2^e < 2^b] for [b] the bit length of [m] plus [e], and
    [log10 2 < 0.30103], the search starts two above [b * 0.30103]. *)
Definition magnitude (m e : Z) : Z :=
  magnitude_from 8 ((Z.log2 m + 1 + e) * 30103 / 100000 + 2) m e.

(** [floor (m * 2^e / 10^t)]. *)
Definition scaled_floor (m e t : Z) : Z :=
  (m * 2 ^ Z.max e 0 * 10 ^ Z.max (- t) 0)
  / (2 ^ Z.max (- e) 0 * 10 ^ Z.max t 0).

(** The pair [(s, n)] of Number::toString, trying [k], [k+1], ... digits;
    seventeen digits tell any two doubles apart. *)
Fixpoint shortest (fuel : nat) (k n0 m e : Z) : Z * Z :=
  let t := n0 - k in
  let below := scaled_floor m e t in
  let above := below + 1 in
  let pick :=
    match reads_back m e below t, reads_back m e above t with
    | true, true =>
        match compare_dec_bin (2 * below + 1) t (8 * m) (e - 2) with
        | Gt => Some below
        | Lt => Some above
        | Eq => Some (if Z.even below then below else above)
        end
    | true, false => Some below
    | false, true => Some above
    | false, false => None
    end in
  match pick with
  | Some s => if s =? 10 ^ k then (1, n0 + 1) else (s, n0)
  | None =>
      match fuel with
      | O => (below, n0)
      | S fuel' => shortest fuel' (k + 1) n0 m e
      end
  end.

Definition Number_toString (x : float) : string :=
  match x with
  | S754_nan => "NaN"
  | S754_zero _ => "0"
  | S754_infinity s => if s then "-Infinity" else "Infinity"
  | S754_finite sg m e =>
      let '(s, n) := shortest 17 1 (magnitude (Z.pos m) e) (Z.pos m) e in
      let ds := decimal s in
      let k := Z.of_nat (String.length ds) in
      let expo := (if n - 1 <? 0 then "e-" else "e+") ++ decimal (Z.abs (n - 1)) in
      let body :=
        if (k <=? n) && (n <=? 21) then ds ++ zeros (Z.to_nat (n - k))
        else if (0 <? n) && (n <=? 21) then take n ds ++ "." ++ drop n ds
        else if (-6 <? n) && (n <=? 0) then "0." ++ zeros (Z.to_nat (- n)) ++ ds
        else if k =? 1 then ds ++ expo
        else take 1 ds ++ "." ++ drop 1 ds ++ expo in
      ((if sg then "-" else "") ++ body)%string
  end.

(** ** StringToNumber

    The grammar StringNumericLiteral: white space around an optional
    literal, which is a signed decimal literal (digits, fraction, exponent,
    or [Infinity]) or an unsigned binary, octal or hexadecimal integer. An
    empty literal is +0, and text outside the grammar is NaN. *)

(** WhiteSpace and LineTerminator code points, in UTF-8: TAB, LF, VT, FF, CR,
    SP, U+00A0, U+1680, U+2000 to U+200A, U+2028, U+2029, U+202F, U+205F,
    U+3000 and U+FEFF. *)
Definition white_space : list (list ascii) :=
  map bytes
    ([[9]; [10]; [11]; [12]; [13]; [32]; [194; 160]; [225; 154; 128]]
     ++ map (fun n => [226; 128; n]) [128; 129; 130; 131; 132; 133; 134; 135; 136; 137; 138]
     ++ [[226; 128; 168]; [226; 128; 169]; [226; 128; 175]; [226; 129; 159];
         [227; 128; 128]; [239; 187; 191]])%nat%list.

Fixpoint strip_prefix (p cs : list ascii) : option (list ascii) :=
  match p, cs with
  | [], _ => Some cs
  | a :: p', b :: cs' => if Ascii.eqb a b then strip_prefix p' cs' else None
  | _ :: _, [] => None
  end.

Fixpoint strip_any (ps : list (list ascii)) (cs : list ascii) : option (list ascii) :=
  match ps with
  | [] => None
  | p :: ps' =>
      match strip_prefix p cs with
      | Some rest => Some rest
      | None => strip_any ps' cs
      end
  end.

Fixpoint strip_all (fuel : nat) (ps : list (list ascii)) (cs : list ascii) : list ascii :=
  match fuel with
  | O => cs
  | S fuel' =>
      match strip_any ps cs with
      | Some rest => strip_all fuel' ps rest
      | None => cs
      end
  end.

Definition trim (cs : list ascii) : list ascii :=
  let front := strip_all (List.length cs) white_space cs in
  rev (strip_all (List.length front) (map (@rev ascii) white_space) (rev front)).

(** The value of a digit in a radix up to 16, if it is one. *)
Definition digit_value (radix : Z) (c : ascii) : option Z :=
  let n := code c in
  let v := if (48 <=? n) && (n <=? 57) then n - 48
           else if (97 <=? n) && (n <=? 102) then n - 87
           else if (65 <=? n) && (n <=? 70) then n - 55
           else radix in
  if v <? radix then Some v else None.

(** The leading digits of [cs] read in [radix] (value and count) and the rest. *)
Fixpoint digits (radix : Z) (value : Z) (count : nat) (cs : list ascii)
  : Z * nat * list ascii :=
  match cs with
  | c :: cs' =>
      match digit_value radix c with
      | Some v => digits radix (radix * value + v) (S count) cs'
      | None => (value, count, cs)
      end
  | [] => (value, count, cs)
  end.

Definition signed (cs : list ascii) : bool * list ascii :=
  match cs with
  | "+"%char :: cs' => (false, cs')
  | "-"%char :: cs' => (true, cs')
  | _ => (false, cs)
  end.

(** A whole literal of digits in [radix]: at least one digit, nothing after. *)
Definition integer_literal (radix : Z) (cs : list ascii) : float :=
  match digits radix 0 0 cs with
  | (_, O, _) => NaN
  | (v, S _, []) => of_Z v
  | (_, S _, _ :: _) => NaN
  end.

(** ExponentPart, or nothing: the exponent when the text ends there. *)
Definition exponent_part (cs : list ascii) : option Z :=
  match cs with
  | [] => Some 0
  | c :: cs' =>
      if Ascii.eqb c "e" || Ascii.eqb c "E" then
        let '(neg, ds) := signed cs' in
        match digits 10 0 0 ds with
        | (v, S _, []) => Some (if neg then - v else v)
        | _ => None
        end
      else None
  end.

Definition decimal_literal (cs : list ascii) : float :=
  let '(neg, body) := signed cs in
  if list_eq_dec ascii_dec body (chars "Infinity") then S754_infinity neg
  else
    let '(int_value, int_count, after_int) := digits 10 0 0 body in
    let '(mantissa, frac_count, after_frac) :=
      match after_int with
      | "."%char :: frac => digits 10 int_value 0 frac
      | _ => (int_value, O, after_int)
      end in
    match (int_count + frac_count)%nat, exponent_part after_frac with
    | O, _ => NaN
    | S _, None => NaN
    | S _, Some expo =>
        let e10 := expo - Z.of_nat frac_count in
        match mantissa with
        | Z.pos p => of_Q neg (Z.to_pos (Z.pos p * 10 ^ Z.max e10 0))
                              (Z.to_pos (10 ^ Z.max (- e10) 0))
        | _ => S754_zero neg
        end
    end.

Definition StringToNumber (s : string) : float :=
  match trim (chars s) with
  | [] => S754_zero false
  | "0"%char :: r :: cs =>
      if Ascii.eqb r "x" || Ascii.eqb r "X" then integer_literal 16 cs
      else if Ascii.eqb r "o" || Ascii.eqb r "O" then integer_literal 8 cs
      else if Ascii.eqb r "b" || Ascii.eqb r "B" then integer_literal 2 cs
      else decimal_literal ("0"%char :: r :: cs)
  | cs => decimal_literal cs
  end.

(** ** Values

    What [JSON.parse] returns and what the handlers pass around. A property
    that is missing reads as [undefined], which is [None] of [option json]. *)

#[local] Set Warnings "-register-all".

Inductive json : Type :=
  | JNull
  | JBool (b : bool)
  | JNum (x : float)
  | JStr (s : string)
  | JArr (items : list json)
  | JObj (members : list (string * json)).

(** The property names the handlers read or write. None of them is defined
    by a built-in prototype, so reading one from a value finds either an own
    property of an object or nothing. *)
Inductive field : Type := state | desired | reported | light | brightness.

Definition field_name (f : field) : string :=
  match f with
  | state => "state"
  | desired => "desired"
  | reported => "reported"
  | light => "light"
  | brightness => "brightness"
  end.

(** The value of key [k] among the members of a parsed object: where a key
    is repeated in the text, the later member wins. *)
Fixpoint lookup (k : string) (members : list (string * json)) : option json :=
  match members with
  | [] => None
  | (k', v) :: rest =>
      match lookup k rest with
      | Some later => Some later
      | None => if String.eqb k k' then Some v else None
      end
  end.

(** [v.f] for a [v] that is neither [undefined] nor [null]. *)
Definition member (v : json) (f : field) : option json :=
  match v with
  | JObj members => lookup (field_name f) members
  | _ => None
  end.

(** ToBoolean: [undefined], [null], [false], zeros, NaN and the empty string
    are falsy, everything else is truthy. *)
Definition ToBoolean (v : option json) : bool :=
  match v with
  | None => false
  | Some JNull => false
  | Some (JBool b) => b
  | Some (JNum (S754_zero _)) => false
  | Some (JNum S754_nan) => false
  | Some (JNum _) => true
  | Some (JStr s) => negb (String.eqb s "")
  | Some (JArr _) => true
  | Some (JObj _) => true
  end.

(** [a || b] for a [b] that is a value. *)
Definition or_else (a : option json) (b : json) : json :=
  match a with
  | Some v => if ToBoolean a then v else b
  | None => b
  end.

(** [a === s] for a string [s]. *)
Definition strict_equals_string (a : option json) (s : string) : bool :=
  match a with
  | Some (JStr s') => String.eqb s' s
  | _ => false
  end.

(** Whether the object with these members has an own property named [k]. *)
Definition has_own (k : string) (members : list (string * json)) : bool :=
  existsb (fun p => String.eqb k (fst p)) members.

(** ToString, [None] where it throws a TypeError. An array prints its
    elements separated by commas, [null] among them as nothing. An object
    is converted by its [toString] method: the one of [Object.prototype]
    prints ["[object Object]"], but a member named [toString] hides it, and
    as no member of a parsed object can be called (nor can [valueOf] give a
    primitive), the conversion throws. *)
Fixpoint ToString (v : json) : option string :=
  match v with
  | JNull => Some "null"
  | JBool b => Some (if b then "true" else "false")
  | JNum x => Some (Number_toString x)
  | JStr s => Some s
  | JArr items =>
      (fix join (l : list json) : option string :=
         match l with
         | [] => Some ""
         | x :: l' =>
             match match x with JNull => Some "" | _ => ToString x end,
                   match l' with
                   | [] => Some ""
                   | _ :: _ => option_map (append ",") (join l')
                   end
             with
             | Some first, Some others => Some (first ++ others)
             | _, _ => None
             end
         end) items
  | JObj members =>
      if has_own "toString" members then None else Some "[object Object]"
  end.

(** ToNumber, [None] where it throws a TypeError; an array or object goes
    through its string. *)
Definition ToNumber (v : json) : option float :=
  match v with
  | JNull => Some (S754_zero false)
  | JBool b => Some (if b then of_Z 1 else S754_zero false)
  | JNum x => Some x
  | JStr s => Some (StringToNumber s)
  | JArr _ | JObj _ => option_map StringToNumber (ToString v)
  end.

(** ** JSON.stringify *)

Definition hex_digit (n : Z) : string :=
  text [ascii_of_nat (Z.to_nat (if n <? 10 then 48 + n else 87 + n))].

Definition escape (c : ascii) : string :=
  let n := code c in
  if n =? 34 then backslash ++ dquote
  else if n =? 92 then backslash ++ backslash
  else if n =? 8 then backslash ++ "b"
  else if n =? 9 then backslash ++ "t"
  else if n =? 10 then backslash ++ "n"
  else if n =? 12 then backslash ++ "f"
  else if n =? 13 then backslash ++ "r"
  else if n <? 32 then backslash ++ "u00" ++ hex_digit (n / 16) ++ hex_digit (n mod 16)
  else text [c].

Definition QuoteJSONString (s : string) : string :=
  dquote ++ String.concat "" (map escape (chars s)) ++ dquote.

(** The keys of an object are listed with the array indices first, in
    ascending order, then the other keys in the order of their creation; a
    key given twice keeps its first place and its last value. *)
Definition array_index (k : string) : option Z :=
  match digits 10 0 0 (chars k) with
  | (v, S _, []) =>
      if String.eqb (decimal v) k && (v <? 2 ^ 32 - 1) then Some v else None
  | _ => None
  end.

Fixpoint define {A : Type} (k : string) (a : A) (props : list (string * A))
  : list (string * A) :=
  match props with
  | [] => [(k, a)]
  | (k', a') :: rest =>
      if String.eqb k k' then (k', a) :: rest else (k', a') :: define k a rest
  end.

Fixpoint insert_index {A : Type} (i : Z) (p : string * A)
  (sorted : list (Z * (string * A))) : list (Z * (string * A)) :=
  match sorted with
  | [] => [(i, p)]
  | (j, q) :: rest =>
      if i <? j then (i, p) :: sorted else (j, q) :: insert_index i p rest
  end.

Definition own_properties {A : Type} (members : list (string * A))
  : list (string * A) :=
  let props := fold_left (fun acc p => define (fst p) (snd p) acc) members [] in
  let indexed :=
    fold_left
      (fun acc p =>
         match array_index (fst p) with
         | Some i => insert_index i p acc
         | None => acc
         end) props [] in
  let named :=
    filter (fun p => match array_index (fst p) with Some _ => false | None => true end)
           props in
  (map snd indexed ++ named)%list.

Fixpoint JSON_stringify (v : json) : string :=
  match v with
  | JNull => "null"
  | JBool b => if b then "true" else "false"
  | JNum x =>
      match x with
      | S754_nan | S754_infinity _ => "null"
      | _ => Number_toString x
      end
  | JStr s => QuoteJSONString s
  | JArr items =>
      "[" ++ String.concat ","
               ((fix each (l : list json) : list string :=
                   match l with
                   | [] => []
                   | x :: l' => JSON_stringify x :: each l'
                   end) items)
          ++ "]"
  | JObj members =>
      "{" ++ String.concat ","
               (map (fun p => QuoteJSONString (fst p) ++ ":" ++ snd p)
                  (own_properties
                     ((fix each (l : list (string * json)) : list (string * string) :=
                         match l with
                         | [] => []
                         | (k, x) :: l' => (k, JSON_stringify x) :: each l'
                         end) members)))
          ++ "}"
  end.

End JS.

Import JS.

(** ** The transport: AWS [IotData]

    The handlers reach the thing shadow through two calls of the SDK,
    [getThingShadow(params).promise()] and
    [updateThingShadow(params).promise()]. Each returns a promise, which the
    handler awaits: it is fulfilled with a response or rejected with the
    transport's error. *)

Inductive error : Type :=
  | TransportError (detail : string)
  | TypeError
  | SyntaxError.

Inductive settled (A : Type) : Type :=
  | Fulfilled (a : A)
  | Rejected (reason : error).
Arguments Fulfilled {A} a.
Arguments Rejected {A} reason.

(** The text of a response, as [JSON.parse] reads it: not JSON at all, or
    the value it denotes. *)
Inductive document : Type :=
  | Malformed
  | WellFormed (v : json).

Module Get.

Record params : Type := { thingName : string }.

(** [res.payload] is optional in the SDK's types. *)
Record response : Type := { payload : option document }.

End Get.

Module Update.

Record params : Type := { thingName : string; payload : string }.

End Update.

Record IotData : Type := {
  getThingShadow : Get.params -> settled Get.response;
  updateThingShadow : Update.params -> settled unit
}.

(** ** Asynchronous functions

    An [async] function runs to the end or to the first error thrown; what
    it did on the way (calls to the transport, lines of the debug log) is
    recorded in order. Awaiting a rejected promise throws its reason. *)

Inductive event : Type :=
  | GetThingShadow (params : Get.params)
  | UpdateThingShadow (params : Update.params)
  | LogDebug (message : string) (arg : json).

Inductive completion (A : Type) : Type :=
  | Return (a : A)
  | Throw (e : error).
Arguments Return {A} a.
Arguments Throw {A} e.

Definition async (A : Type) : Type := list event * completion A.

Definition ret {A : Type} (a : A) : async A := ([], Return a).

Definition throw {A : Type} (e : error) : async A := ([], Throw e).

Definition bind {A B : Type} (m : async A) (k : A -> async B) : async B :=
  match m with
  | (done, Return a) => let '(more, c) := k a in ((done ++ more)%list, c)
  | (done, Throw e) => (done, Throw e)
  end.

Notation "x <- m ;; k" := (bind m (fun x => k))
  (at level 61, m at next level, right associativity).
Notation "m ;; k" := (bind m (fun _ => k))
  (at level 61, right associativity).

Definition emit (e : event) : async unit := ([e], Return tt).

Definition await {A : Type} (p : settled A) : async A :=
  match p with
  | Fulfilled a => ret a
  | Rejected reason => throw reason
  end.

(** An operation of the language that throws a TypeError where its result
    is [None]. *)
Definition or_throw {A : Type} (result : option A) : async A :=
  match result with
  | Some a => ret a
  | None => throw TypeError
  end.

(** [JSON.parse(res.payload!.toString())]: the [!] is erased by the
    compiler, so a missing payload fails at [.toString()]. *)
Definition JSON_parse_payload (res : Get.response) : async json :=
  match Get.payload res with
  | None => throw TypeError
  | Some Malformed => throw SyntaxError
  | Some (WellFormed v) => ret v
  end.

(** [v.f]: reading a property of [undefined] or [null] throws. *)
Definition get (v : option json) (f : field) : async (option json) :=
  match v with
  | None => throw TypeError
  | Some JNull => throw TypeError
  | Some o => ret (member o f)
  end.

(** ** The accessory *)

Module LightBulbPlatformAccessory.

(** Of [this], the handlers use [this.accessory.context.device.uniqueId] and
    [this.iotdata]; [this.platform.log.debug] is the [LogDebug] event. *)
Record t : Type := {
  uniqueId : string;
  iotdata : IotData
}.

Definition log_debug (message : string) (arg : json) : async unit :=
  emit (LogDebug message arg).

Definition getThingShadow_promise (this : t) (params : Get.params)
  : async Get.response :=
  emit (GetThingShadow params) ;;
  await (getThingShadow (iotdata this) params).

Definition updateThingShadow_promise (this : t) (params : Update.params)
  : async unit :=
  emit (UpdateThingShadow params) ;;
  await (updateThingShadow (iotdata this) params).

(** [{ state: { desired: { f: v } } }] *)
Definition desired_state (f : field) (v : json) : json :=
  JObj [(field_name state, JObj [(field_name desired, JObj [(field_name f, v)])])].

(** [Math.round((value as number / 100) * 255)], for the Number that [/]
    has made of [value]. *)
Definition toNative (value : float) : float :=
  Math_round (mul (div value (of_Z 100)) (of_Z 255)).

(** [Math.round((reportedBrightness / 255) * 100)], for the Number that [/]
    has made of [reportedBrightness]. *)
Definition toPercentage (reportedBrightness : float) : float :=
  Math_round (mul (div reportedBrightness (of_Z 255)) (of_Z 100)).

(** The [params] of [setOn]. *)
Definition setOn_params (this : t) (value : json) : Update.params :=
  {| Update.thingName := uniqueId this;
     Update.payload :=
       JSON_stringify
         (desired_state light
            (JStr (if ToBoolean (Some value) then "on" else "off"))) |}.

Definition setOn (this : t) (value : json) : async unit :=
  let params := setOn_params this value in
  updateThingShadow_promise this params ;;
  log_debug "Set Characteristic On ->" value.

(** The [params] of [getOn] and of [getBrightness]. *)
Definition get_params (this : t) : Get.params :=
  {| Get.thingName := uniqueId this |}.

Definition getOn (this : t) : async bool :=
  let params := get_params this in
  res <- getThingShadow_promise this params ;;
  payload <- JSON_parse_payload res ;;
  payload_state <- get (Some payload) state ;;
  payload_state_reported <- get payload_state reported ;;
  payload_state_reported_light <- get payload_state_reported light ;;
  let lightStatus := strict_equals_string payload_state_reported_light "on" in
  log_debug "Get Characteristic On ->" (JBool lightStatus) ;;
  ret lightStatus.

(** The [params] of [setBrightness]. *)
Definition setBrightness_params (this : t) (brightness : float) : Update.params :=
  {| Update.thingName := uniqueId this;
     Update.payload :=
       JSON_stringify (desired_state JS.brightness (JNum brightness)) |}.

(** The division converts [value] to a Number first, which can throw. *)
Definition setBrightness (this : t) (value : json) : async unit :=
  value_as_number <- or_throw (ToNumber value) ;;
  let brightness := toNative value_as_number in
  let params := setBrightness_params this brightness in
  log_debug "Set Characteristic Brightness -> " value ;;
  updateThingShadow_promise this params.

Definition getBrightness (this : t) : async float :=
  let params := get_params this in
  res <- getThingShadow_promise this params ;;
  payload <- JSON_parse_payload res ;;
  payload_state <- get (Some payload) state ;;
  payload_state_reported <- get payload_state reported ;;
  payload_state_reported_brightness <- get payload_state_reported JS.brightness ;;
  let reportedBrightness :=
    or_else payload_state_reported_brightness (JNum (of_Z 0)) in
  reportedBrightness_as_number <- or_throw (ToNumber reportedBrightness) ;;
  let brightness := toPercentage reportedBrightness_as_number in
  log_debug "Get Characteristic Brightness -> " (JNum brightness) ;;
  ret brightness.

End LightBulbPlatformAccessory.

Import LightBulbPlatformAccessory.

(** ** Vocabulary of the properties *)

(** The shadow writes among the events of a run, in order. *)
Fixpoint shadow_writes (events : list event) : list Update.params :=
  match events with
  | [] => []
  | UpdateThingShadow params :: rest => params :: shadow_writes rest
  | _ :: rest => shadow_writes rest
  end.

(** The read of the accessory's shadow succeeds and its text parses to [doc]. *)
Definition reads (this : t) (doc : json) : Prop :=
  getThingShadow (iotdata this) (get_params this)
  = Fulfilled {| Get.payload := Some (WellFormed doc) |}.

(** [doc.state.reported] is there, and is [r]. *)
Definition reported_subtree (doc r : json) : Prop :=
  exists st, member doc state = Some st /\ member st reported = Some r /\ r <> JNull.

(** [num / den] rounded to the nearest integer, a half going up. *)
Definition round_half_up (num den : Z) : Z := (2 * num + den) / (2 * den).

(** An integral Number between 0 and 100. *)
Definition is_percentage (x : float) : bool :=
  float_eqb (Math_round x) x && leb (of_Z 0) x && leb x (of_Z 100).

(** A JSON text between double quotes. *)
Definition quoted (s : string) : string := dquote ++ s ++ dquote.

(** [{"state":{"desired":{"<key>":<value>}}}] *)
Definition desired_text (key value : string) : string :=
  "{" ++ quoted "state" ++ ":{" ++ quoted "desired" ++ ":{"
      ++ quoted key ++ ":" ++ value ++ "}}}".

(** A transport that answers every read with [doc] and accepts every write. *)
Definition lamp (doc : json) : t :=
  {| uniqueId := "lamp-1";
     iotdata :=
       {| getThingShadow := fun _ => Fulfilled {| Get.payload := Some (WellFormed doc) |};
          updateThingShadow := fun _ => Fulfilled tt |} |}.

(** A transport that rejects every call with [e]. *)
Definition unreachable_lamp (e : error) : t :=
  {| uniqueId := "lamp-1";
     iotdata :=
       {| getThingShadow := fun _ => Rejected e;
          updateThingShadow := fun _ => Rejected e |} |}.

(** [{"state":{"reported":{...}}}] *)
Definition shadow (members : list (string * json)) : json :=
  JObj [("state", JObj [("reported", JObj members)])].

(** The integers [0], [1], ..., [n - 1]. *)
Definition range (n : nat) : list Z := map Z.of_nat (seq 0 n).

(** The shadow reads among the events of a run, in order. *)
Fixpoint shadow_reads (events : list event) : list Get.params :=
  match events with
  | [] => []
  | GetThingShadow params :: rest => params :: shadow_reads rest
  | _ :: rest => shadow_reads rest
  end.


(** ** The constructor and the host

    The constructor of [LightBulbPlatformAccessory] only talks to Homebridge:
    it looks services up on the accessory, sets two characteristics and
    registers the four handlers. Homebridge is not part of the repository, so
    its objects are handles and its answers are given by the host; every call
    may throw, and what the constructor called is recorded in order. *)

Module Homebridge.

(** [this.platform.Service.AccessoryInformation] and [.Lightbulb]. *)
Inductive Service : Type := AccessoryInformation | Lightbulb.

(** [this.platform.Characteristic.Manufacturer], [.Name], [.On] and
    [.Brightness]. *)
Inductive Characteristic : Type := Manufacturer | Name | On | Brightness.

(** Service objects and characteristic objects, by identity. *)
Definition service : Type := nat.
Definition characteristic : Type := nat.

(** [this.setOn.bind(this)] and the three others: a method of the instance
    under construction, bound to it. *)
Inductive bound_method : Type :=
  | bound_setOn
  | bound_getOn
  | bound_setBrightness
  | bound_getBrightness.

Inductive host_call : Type :=
  | GetService (c : Service)
  | AddService (c : Service)
  | SetCharacteristic (s : service) (c : Characteristic) (value : json)
  | GetCharacteristic (s : service) (c : Characteristic)
  | OnSet (ch : characteristic) (handler : bound_method)
  | OnGet (ch : characteristic) (handler : bound_method).

(** The answers of the host. [getService] gives [undefined] ([None]) for a
    service the accessory does not have; [setCharacteristic], [onSet] and
    [onGet] answer with the object the chain goes on with. *)
Record Host : Type := {
  getService : Service -> completion (option service);
  addService : Service -> completion service;
  setCharacteristic : service -> Characteristic -> json -> completion service;
  getCharacteristic : service -> Characteristic -> completion characteristic;
  onSet : characteristic -> bound_method -> completion characteristic;
  onGet : characteristic -> bound_method -> completion characteristic
}.

(** Synchronous code that records its calls to the host. *)
Definition traced (A : Type) : Type := list host_call * completion A.

Definition pure {A : Type} (a : A) : traced A := ([], Return a).

Definition fail {A : Type} (e : error) : traced A := ([], Throw e).

Definition and_then {A B : Type} (m : traced A) (k : A -> traced B) : traced B :=
  match m with
  | (done, Return a) => let '(more, c) := k a in ((done ++ more)%list, c)
  | (done, Throw e) => (done, Throw e)
  end.

(** One call to the host and its answer. *)
Definition call {A : Type} (c : host_call) (answer : completion A) : traced A :=
  ([c], answer).

Notation "x <~ m ;; k" := (and_then m (fun x => k))
  (at level 61, m at next level, right associativity).

(** [x!.m(...)] and [x.m(...)]: a method call on [undefined] throws. *)
Definition defined {A : Type} (x : option A) : traced A :=
  match x with
  | Some a => pure a
  | None => fail TypeError
  end.

(** The constructor, for an accessory whose
    [context.device.displayName] is [displayName]; it returns
    [this.service]. *)
Definition constructor (host : Host) (displayName : json) : traced service :=
  information <~ call (GetService AccessoryInformation)
                      (getService host AccessoryInformation) ;;
  information <~ defined information ;;
  _ <~ call (SetCharacteristic information Manufacturer (JStr "Neopixel"))
            (setCharacteristic host information Manufacturer (JStr "Neopixel")) ;;
  found <~ call (GetService Lightbulb) (getService host Lightbulb) ;;
  this_service <~ match found with
                  | Some s => pure s
                  | None => call (AddService Lightbulb) (addService host Lightbulb)
                  end ;;
  _ <~ call (SetCharacteristic this_service Name displayName)
            (setCharacteristic host this_service Name displayName) ;;
  on <~ call (GetCharacteristic this_service On)
             (getCharacteristic host this_service On) ;;
  on <~ call (OnSet on bound_setOn) (onSet host on bound_setOn) ;;
  _ <~ call (OnGet on bound_getOn) (onGet host on bound_getOn) ;;
  bright <~ call (GetCharacteristic this_service Brightness)
                 (getCharacteristic host this_service Brightness) ;;
  bright <~ call (OnSet bright bound_setBrightness)
                 (onSet host bright bound_setBrightness) ;;
  _ <~ call (OnGet bright bound_getBrightness)
            (onGet host bright bound_getBrightness) ;;
  pure this_service.

(** The handlers registered by a run, in order. *)
Fixpoint registrations (calls : list host_call) : list host_call :=
  match calls with
  | [] => []
  | OnSet ch h :: rest => OnSet ch h :: registrations rest
  | OnGet ch h :: rest => OnGet ch h :: registrations rest
  | _ :: rest => registrations rest
  end.

(** The characteristics set by a run, in order. *)
Fixpoint settings (calls : list host_call) : list host_call :=
  match calls with
  | [] => []
  | SetCharacteristic s c v :: rest => SetCharacteristic s c v :: settings rest
  | _ :: rest => settings rest
  end.

(** The services added by a run, in order. *)
Fixpoint added_services (calls : list host_call) : list Service :=
  match calls with
  | [] => []
  | AddService c :: rest => c :: added_services rest
  | _ :: rest => added_services rest
  end.

(** The chained methods answer with their receiver, as those of HAP-NodeJS
    do. *)
Definition fluent (host : Host) : Prop :=
  (forall s c v s', setCharacteristic host s c v = Return s' -> s' = s)
  /\ (forall ch h ch', onSet host ch h = Return ch' -> ch' = ch)
  /\ (forall ch h ch', onGet host ch h = Return ch' -> ch' = ch).

(** A host whose accessory has the services [services] (their handles are
    their places in the list), which adds a service at the end, whose
    characteristic of class [c] on service [s] is the object
    [4 * s + index c], and none of whose calls throws. *)
Definition characteristic_index (c : Characteristic) : nat :=
  match c with Manufacturer => 0 | Name => 1 | On => 2 | Brightness => 3 end.

Definition Service_eqb (a b : Service) : bool :=
  match a, b with
  | AccessoryInformation, AccessoryInformation => true
  | Lightbulb, Lightbulb => true
  | _, _ => false
  end.

Fixpoint find_service (c : Service) (services : list Service) (n : nat) : option service :=
  match services with
  | [] => None
  | c' :: rest => if Service_eqb c c' then Some n else find_service c rest (S n)
  end.

Definition accessory_with (services : list Service) : Host :=
  {| getService := fun c => Return (find_service c services 0);
     addService := fun _ => Return (List.length services);
     setCharacteristic := fun s _ _ => Return s;
     getCharacteristic := fun s c => Return (4 * s + characteristic_index c)%nat;
     onSet := fun ch _ => Return ch;
     onGet := fun ch _ => Return ch |}.

End Homebridge.

(** ** The ECMAScript fragment on samples *)

Example Math_round_samples :
  map Math_round
    [of_Q false 5 2; of_Q true 5 2; of_Q false 1 2; of_Q true 1 2;
     of_Q false 7843 100; of_Z 7; S754_zero true; NaN]
  = [of_Z 3; of_Z (-2); of_Z 1; S754_zero true;
     of_Z 78; of_Z 7; S754_zero true; NaN].
Proof. vm_compute; reflexivity. Qed.

Example Number_toString_samples :
  map Number_toString
    [of_Z 0; of_Z 128; of_Z (-5); of_Q false 1 10; of_Q false 255 2;
     of_Q false 1 3; of_Z (10 ^ 21); of_Q false 1 10000000;
     of_Z 123456789012345680000; S754_finite false 1 (-1074)]
  = ["0"; "128"; "-5"; "0.1"; "127.5";
     "0.3333333333333333"; "1e+21"; "1e-7";
     "123456789012345680000"; "5e-324"].
Proof. vm_compute; reflexivity. Qed.

Example StringToNumber_samples :
  map StringToNumber
    [""; " 200 "; "-0"; "0x1F"; ".5"; "1e3"; "-Infinity"; "0.1"; "12px"; "0x"]
  = [of_Z 0; of_Z 200; S754_zero true; of_Z 31; of_Q false 1 2; of_Z 1000;
     S754_infinity true; of_Q false 1 10; NaN; NaN].
Proof. vm_compute; reflexivity. Qed.

Example ToNumber_samples :
  map ToNumber
    [JNull; JBool true; JStr "200"; JArr []; JArr [JNum (of_Z 200)];
     JArr [JNum (of_Z 1); JNum (of_Z 2)]; JObj []; JObj [("valueOf", JNum (of_Z 5))];
     JObj [("toString", JStr "50")]; JArr [JObj [("toString", JNull)]]]
  = [Some (of_Z 0); Some (of_Z 1); Some (of_Z 200); Some (of_Z 0); Some (of_Z 200);
     Some NaN; Some NaN; Some NaN;
     None; None].
Proof. vm_compute; reflexivity. Qed.

Example JSON_stringify_sample :
  JSON_stringify
    (JObj [("b", JNum (of_Z 128)); ("10", JNull); ("2", JArr [JBool true; JNum NaN]);
           ("b", JStr "a/b")])
  = "{" ++ quoted "2" ++ ":[true,null]," ++ quoted "10" ++ ":null,"
        ++ quoted "b" ++ ":" ++ quoted "a/b" ++ "}".
Proof. vm_compute; reflexivity. Qed.

(** ** Checking a property on a range of integers *)

Lemma forallb_range (P : Z -> bool) (n : nat) :
  forallb P (range n) = true ->
  forall z, 0 <= z < Z.of_nat n -> P z = true.
Proof.
  intros Hall z Hz.
  rewrite forallb_forall in Hall.
  apply Hall. unfold range.
  rewrite <- (Z2Nat.id z) by lia.
  apply in_map, in_seq. lia.
Qed.

Lemma float_eqb_eq (x y : float) : float_eqb x y = true -> x = y.
Proof.
  destruct x as [s|s| |s m e], y as [t|t| |t n f]; simpl; try discriminate.
  - intros H. apply Bool.eqb_prop in H. now subst.
  - intros H. apply Bool.eqb_prop in H. now subst.
  - reflexivity.
  - intros H. apply andb_prop in H as [H He]. apply andb_prop in H as [Hs Hm].
    apply Bool.eqb_prop in Hs. apply Pos.eqb_eq in Hm. apply Z.eqb_eq in He.
    now subst.
Qed.

(** Integers up to 255 are ordered as Numbers the way they are as integers. *)
Lemma of_Z_leb (a b : Z) :
  0 <= a <= b -> b <= 255 -> leb (of_Z a) (of_Z b) = true.
Proof.
  intros Hab Hb.
  assert (Hall : forallb (fun a => forallb (fun b => (b <? a) || leb (of_Z a) (of_Z b))
                                     (range 256)) (range 256) = true)
    by (vm_compute; reflexivity).
  pose proof (forallb_range _ _ Hall a ltac:(simpl; lia)) as Ha.
  pose proof (forallb_range _ _ Ha b ltac:(simpl; lia)) as Hle.
  apply orb_prop in Hle as [Hlt | Hle]; [apply Z.ltb_lt in Hlt; lia | exact Hle].
Qed.

(** ** The conversions are exact

    On the integers of their domain the two conversions, computed in
    doubles, agree with exact rounding of the exact quotient. *)

Lemma toNative_exact (p : Z) :
  0 <= p <= 100 ->
  toNative (of_Z p) = of_Z (round_half_up (p * 255) 100).
Proof.
  intros Hp. apply float_eqb_eq.
  apply (forallb_range
           (fun p => float_eqb (toNative (of_Z p))
                               (of_Z (round_half_up (p * 255) 100))) 101).
  - vm_compute; reflexivity.
  - simpl; lia.
Qed.

Lemma toPercentage_exact (n : Z) :
  0 <= n <= 255 ->
  toPercentage (of_Z n) = of_Z (round_half_up (n * 100) 255).
Proof.
  intros Hn. apply float_eqb_eq.
  apply (forallb_range
           (fun n => float_eqb (toPercentage (of_Z n))
                               (of_Z (round_half_up (n * 100) 255))) 256).
  - vm_compute; reflexivity.
  - simpl; lia.
Qed.

Lemma round_half_up_mono (a b den : Z) :
  0 < den -> a <= b -> round_half_up a den <= round_half_up b den.
Proof.
  intros Hden Hab. unfold round_half_up.
  apply Z.div_le_mono; lia.
Qed.

Lemma round_half_up_bounds (a den hi : Z) :
  0 < den -> 0 <= a <= hi * den -> 0 <= round_half_up a den <= hi.
Proof.
  intros Hden Ha. unfold round_half_up. split.
  - apply Z.div_pos; lia.
  - apply Z.lt_succ_r, Z.div_lt_upper_bound; nia.
Qed.

(** ** Runs of the two readers *)

Lemma get_present (o : json) (f : field) :
  o <> JNull -> get (Some o) f = ret (member o f).
Proof. destruct o; simpl; congruence. Qed.

(** What both readers do up to [payload.state.reported], for a continuation
    [k] on that value. *)
Lemma read_reported {A : Type} (this : t) (doc r : json)
  (k : option json -> async A) :
  reads this doc -> reported_subtree doc r ->
  (res <- getThingShadow_promise this (get_params this) ;;
   payload <- JSON_parse_payload res ;;
   payload_state <- get (Some payload) state ;;
   payload_state_reported <- get payload_state reported ;;
   k payload_state_reported)
  = (emit (GetThingShadow (get_params this)) ;; k (Some r)).
Proof.
  intros Hread (st & Hst & Hr & _).
  unfold getThingShadow_promise. rewrite Hread.
  destruct doc; try discriminate. destruct st; try discriminate.
  cbn in Hst, Hr |- *. rewrite Hst. cbn. rewrite Hr. cbn.
  destruct (k (Some r)) as [more c]. reflexivity.
Qed.

Lemma getOn_run (this : t) (doc r : json) :
  reads this doc -> reported_subtree doc r ->
  getOn this
  = ([GetThingShadow (get_params this);
      LogDebug "Get Characteristic On ->"
        (JBool (strict_equals_string (member r light) "on"))],
     Return (strict_equals_string (member r light) "on")).
Proof.
  intros Hread Hrep. unfold getOn.
  rewrite (read_reported this doc r _ Hread Hrep).
  destruct Hrep as (_ & _ & _ & Hnull).
  rewrite (get_present r light Hnull). reflexivity.
Qed.

Lemma getBrightness_run (this : t) (doc r : json) :
  reads this doc -> reported_subtree doc r ->
  getBrightness this
  = match ToNumber (or_else (member r brightness) (JNum (of_Z 0))) with
    | Some number =>
        ([GetThingShadow (get_params this);
          LogDebug "Get Characteristic Brightness -> " (JNum (toPercentage number))],
         Return (toPercentage number))
    | None => ([GetThingShadow (get_params this)], Throw TypeError)
    end.
Proof.
  intros Hread Hrep. unfold getBrightness.
  rewrite (read_reported this doc r _ Hread Hrep).
  destruct Hrep as (_ & _ & _ & Hnull).
  rewrite (get_present r brightness Hnull).
  cbn [bind emit ret app]. 
  destruct (ToNumber _); reflexivity.
Qed.

(** The Number that [getBrightness] converts, for a reported number and for
    a reported string. *)
Lemma reported_number (x : float) :
  ToNumber (or_else (Some (JNum x)) (JNum (of_Z 0)))
  = Some (if ToBoolean (Some (JNum x)) then x else of_Z 0).
Proof. unfold or_else. destruct (ToBoolean _); reflexivity. Qed.

Lemma reported_string (s : string) :
  ToNumber (or_else (Some (JStr s)) (JNum (of_Z 0)))
  = Some (if ToBoolean (Some (JStr s)) then StringToNumber s else of_Z 0).
Proof. unfold or_else. destruct (ToBoolean _); reflexivity. Qed.

Lemma strict_equals_string_spec (a : option json) (s : string) :
  strict_equals_string a s = true <-> a = Some (JStr s).
Proof.
  destruct a as [[ | | |s'| | ]|]; simpl; split; try congruence.
  - intros H. apply String.eqb_eq in H. now subst.
  - intros H. injection H as ->. apply String.eqb_refl.
Qed.

Lemma reads_lamp (doc : json) : reads (lamp doc) doc.
Proof. reflexivity. Qed.

Lemma reported_subtree_shadow (members : list (string * json)) :
  reported_subtree (shadow members) (JObj members).
Proof. exists (JObj [("reported", JObj members)]). repeat split. discriminate. Qed.

(** ** Runs of the two writers *)

Lemma setOn_run (this : t) (value : json) :
  setOn this value
  = match updateThingShadow (iotdata this) (setOn_params this value) with
    | Fulfilled _ =>
        ([UpdateThingShadow (setOn_params this value);
          LogDebug "Set Characteristic On ->" value], Return tt)
    | Rejected e => ([UpdateThingShadow (setOn_params this value)], Throw e)
    end.
Proof.
  unfold setOn, updateThingShadow_promise.
  destruct (updateThingShadow _ _) as [[]|e]; reflexivity.
Qed.

Lemma setBrightness_run (this : t) (value : json) (number : float) :
  ToNumber value = Some number ->
  setBrightness this value
  = match updateThingShadow (iotdata this)
            (setBrightness_params this (toNative number)) with
    | Fulfilled _ =>
        ([LogDebug "Set Characteristic Brightness -> " value;
          UpdateThingShadow (setBrightness_params this (toNative number))], Return tt)
    | Rejected e =>
        ([LogDebug "Set Characteristic Brightness -> " value;
          UpdateThingShadow (setBrightness_params this (toNative number))], Throw e)
    end.
Proof.
  intros Hnumber. unfold setBrightness, updateThingShadow_promise. rewrite Hnumber.
  cbv beta iota zeta delta [or_throw bind ret log_debug emit app].
  destruct (updateThingShadow _ _) as [[]|e]; reflexivity.
Qed.

Lemma setBrightness_throws (this : t) (value : json) :
  ToNumber value = None -> setBrightness this value = ([], Throw TypeError).
Proof.
  intros Hthrows. unfold setBrightness. rewrite Hthrows. reflexivity.
Qed.

Lemma setOn_writes (this : t) (value : json) :
  shadow_writes (fst (setOn this value)) = [setOn_params this value].
Proof.
  rewrite setOn_run. destruct (updateThingShadow _ _); reflexivity.
Qed.

Lemma setBrightness_writes (this : t) (value : json) (number : float) :
  ToNumber value = Some number ->
  shadow_writes (fst (setBrightness this value))
  = [setBrightness_params this (toNative number)].
Proof.
  intros Hnumber. rewrite (setBrightness_run this value number Hnumber).
  destruct (updateThingShadow _ _); reflexivity.
Qed.

(** The values the source of [getBrightness] replaces by 0 are falsy. *)
Lemma listed_values_falsy (b : option json) :
  In b [None; Some (JNum (of_Z 0)); Some JNull; Some (JBool false); Some (JStr "")] ->
  ToBoolean b = false.
Proof.
  simpl. intros [<-|[<-|[<-|[<-|[<-|[]]]]]]; reflexivity.
Qed.

Lemma or_else_falsy (a : option json) (b : json) :
  ToBoolean a = false -> or_else a b = b.
Proof.
  intros H. unfold or_else. destruct a; [rewrite H|]; reflexivity.
Qed.

(** * Properties of the handlers *)

(** C1: when the read succeeds and [reported] is present in its result,
    [getOn] returns a boolean (it does not throw), and that boolean is
    [true] exactly when [reported.light] is the string ["on"]; any other
    value of the field, and its absence, give [false]. *)
Theorem getOn_true_iff_reported_light_on (this : t) (doc r : json) :
  reads this doc -> reported_subtree doc r ->
  exists b : bool,
    snd (getOn this) = Return b
    /\ (b = true <-> member r light = Some (JStr "on")).
Proof.
  intros Hread Hrep.
  exists (strict_equals_string (member r light) "on"). split.
  - rewrite (getOn_run this doc r Hread Hrep). reflexivity.
  - apply strict_equals_string_spec.
Qed.

Lemma getOn_true_iff_reported_light_on_witness :
  exists b : bool,
    snd (getOn (lamp (shadow [("light", JStr "on")]))) = Return b
    /\ (b = true <-> member (JObj [("light", JStr "on")]) light = Some (JStr "on")).
Proof.
  exact (getOn_true_iff_reported_light_on
           (lamp (shadow [("light", JStr "on")])) _ _
           (reads_lamp _) (reported_subtree_shadow _)).
Defined.

(** C2: [setOn(true)] makes exactly one shadow write, and its payload is the
    text [{"state":{"desired":{"light":"on"}}}]; with [false] the text has
    ["off"] for ["on"]. The text is that of an object whose [desired] has the
    one member [light]: no [brightness], nor any other field. *)
Theorem setOn_writes_light_only (this : t) :
  shadow_writes (fst (setOn this (JBool true)))
  = [{| Update.thingName := uniqueId this;
        Update.payload := desired_text "light" (quoted "on") |}]
  /\ shadow_writes (fst (setOn this (JBool false)))
     = [{| Update.thingName := uniqueId this;
           Update.payload := desired_text "light" (quoted "off") |}]
  /\ desired_text "light" (quoted "on")
     = JSON_stringify (JObj [("state", JObj [("desired", JObj [("light", JStr "on")])])])
  /\ desired_text "light" (quoted "off")
     = JSON_stringify (JObj [("state", JObj [("desired", JObj [("light", JStr "off")])])]).
Proof.
  repeat split; try apply setOn_writes; vm_compute; reflexivity.
Qed.

(** C3: [setBrightness(50)] makes exactly one shadow write, with payload
    [{"state":{"desired":{"brightness":128}}}], so without a [light] field:
    [50 / 100 * 255] is exactly the half-way value 127.5 = 255/2, and
    [Math.round] takes it up to 128. *)
Theorem setBrightness_50_writes_128 (this : t) :
  shadow_writes (fst (setBrightness this (JNum (of_Z 50))))
  = [{| Update.thingName := uniqueId this;
        Update.payload := desired_text "brightness" "128" |}]
  /\ desired_text "brightness" "128"
     = JSON_stringify
         (JObj [("state", JObj [("desired", JObj [("brightness", JNum (of_Z 128))])])])
  /\ mul (div (of_Z 50) (of_Z 100)) (of_Z 255) = of_Q false 255 2
  /\ toNative (of_Z 50) = of_Z 128.
Proof.
  split; [|repeat split; vm_compute; reflexivity].
  rewrite (setBrightness_writes this (JNum (of_Z 50)) (of_Z 50) eq_refl).
  vm_compute; reflexivity.
Qed.

(** C4: when the read succeeds and [reported] is present but has no
    [brightness], [getBrightness] returns 0 (it does not throw). *)
Theorem getBrightness_absent_is_zero (this : t) (doc r : json) :
  reads this doc -> reported_subtree doc r ->
  member r brightness = None ->
  snd (getBrightness this) = Return (of_Z 0).
Proof.
  intros Hread Hrep Habsent.
  rewrite (getBrightness_run this doc r Hread Hrep), Habsent. reflexivity.
Qed.

Lemma getBrightness_absent_is_zero_witness :
  snd (getBrightness (lamp (shadow [("light", JStr "on")]))) = Return (of_Z 0).
Proof.
  exact (getBrightness_absent_is_zero
           (lamp (shadow [("light", JStr "on")])) _ _
           (reads_lamp _) (reported_subtree_shadow _) eq_refl).
Defined.

(** C5: on the percentages 0, 1, ..., 100 the conversion of [setBrightness]
    is [round(p / 100 * 255)] with halves going up, it is monotonic
    non-decreasing, and it takes 0 to 0 and 100 to 255. *)
Theorem toNative_monotone_boundary_exact (p q : Z) :
  0 <= p <= q -> q <= 100 ->
  toNative (of_Z q) = of_Z (round_half_up (q * 255) 100)
  /\ leb (toNative (of_Z p)) (toNative (of_Z q)) = true
  /\ toNative (of_Z 0) = of_Z 0
  /\ toNative (of_Z 100) = of_Z 255.
Proof.
  intros Hpq Hq.
  rewrite (toNative_exact p), (toNative_exact q), (toNative_exact 0),
    (toNative_exact 100) by lia.
  repeat split.
  apply of_Z_leb.
  - pose proof (round_half_up_bounds (p * 255) 100 255).
    pose proof (round_half_up_mono (p * 255) (q * 255) 100). lia.
  - apply (round_half_up_bounds (q * 255) 100 255); lia.
Qed.

Lemma toNative_monotone_boundary_exact_witness :
  toNative (of_Z 50) = of_Z (round_half_up (50 * 255) 100)
  /\ leb (toNative (of_Z 10)) (toNative (of_Z 50)) = true
  /\ toNative (of_Z 0) = of_Z 0
  /\ toNative (of_Z 100) = of_Z 255.
Proof.
  apply (toNative_monotone_boundary_exact 10 50); lia.
Defined.

(** C6: on the native values 0, ..., 255 the conversion of [getBrightness]
    is [round(n / 255 * 100)], it is monotonic non-decreasing, and it takes
    0 to 0 and 255 to 100; a reported brightness of 200 is returned as 78. *)
Theorem toPercentage_monotone_boundary_exact (m n : Z) :
  0 <= m <= n -> n <= 255 ->
  toPercentage (of_Z n) = of_Z (round_half_up (n * 100) 255)
  /\ leb (toPercentage (of_Z m)) (toPercentage (of_Z n)) = true
  /\ toPercentage (of_Z 0) = of_Z 0
  /\ toPercentage (of_Z 255) = of_Z 100
  /\ (forall this doc r,
        reads this doc -> reported_subtree doc r ->
        member r brightness = Some (JNum (of_Z 200)) ->
        snd (getBrightness this) = Return (of_Z 78)).
Proof.
  intros Hmn Hn.
  rewrite (toPercentage_exact m), (toPercentage_exact n), (toPercentage_exact 0),
    (toPercentage_exact 255) by lia.
  repeat split.
  - apply of_Z_leb.
    + pose proof (round_half_up_bounds (m * 100) 255 100).
      pose proof (round_half_up_mono (m * 100) (n * 100) 255). lia.
    + pose proof (round_half_up_bounds (n * 100) 255 100). lia.
  - intros this doc r Hread Hrep H200.
    rewrite (getBrightness_run this doc r Hread Hrep), H200.
    vm_compute; reflexivity.
Qed.

Lemma toPercentage_monotone_boundary_exact_witness :
  toPercentage (of_Z 200) = of_Z (round_half_up (200 * 100) 255)
  /\ leb (toPercentage (of_Z 128)) (toPercentage (of_Z 200)) = true
  /\ toPercentage (of_Z 0) = of_Z 0
  /\ toPercentage (of_Z 255) = of_Z 100
  /\ (forall this doc r,
        reads this doc -> reported_subtree doc r ->
        member r brightness = Some (JNum (of_Z 200)) ->
        snd (getBrightness this) = Return (of_Z 78)).
Proof.
  apply (toPercentage_monotone_boundary_exact 128 200); lia.
Defined.

(** C7: a rejection of the transport is the outcome of the handler. When
    the read is rejected with [e], [getOn] and [getBrightness] throw [e]
    after that one call: they return no default and do not call again. When
    the write is rejected with [e], [setOn] and [setBrightness] throw [e]
    after that one call; [setBrightness] reaches its write when its value
    converts to a Number (otherwise it calls nothing, and no rejection can
    occur). *)
Theorem transport_error_propagates (this : t) (e : error) (value : json) :
  (getThingShadow (iotdata this) (get_params this) = Rejected e ->
   getOn this = ([GetThingShadow (get_params this)], Throw e)
   /\ getBrightness this = ([GetThingShadow (get_params this)], Throw e))
  /\ (updateThingShadow (iotdata this) (setOn_params this value) = Rejected e ->
      setOn this value = ([UpdateThingShadow (setOn_params this value)], Throw e))
  /\ (forall number,
        ToNumber value = Some number ->
        updateThingShadow (iotdata this) (setBrightness_params this (toNative number))
        = Rejected e ->
        setBrightness this value
        = ([LogDebug "Set Characteristic Brightness -> " value;
            UpdateThingShadow (setBrightness_params this (toNative number))], Throw e)).
Proof.
  split; [|split].
  - intros H. split.
    + unfold getOn, getThingShadow_promise. rewrite H. reflexivity.
    + unfold getBrightness, getThingShadow_promise. rewrite H. reflexivity.
  - intros H. rewrite setOn_run, H. reflexivity.
  - intros number Hnumber H.
    rewrite (setBrightness_run this value number Hnumber), H. reflexivity.
Qed.

Lemma transport_error_propagates_witness :
  (getOn (unreachable_lamp (TransportError "timeout"))
   = ([GetThingShadow {| Get.thingName := "lamp-1" |}], Throw (TransportError "timeout"))
   /\ getBrightness (unreachable_lamp (TransportError "timeout"))
      = ([GetThingShadow {| Get.thingName := "lamp-1" |}], Throw (TransportError "timeout")))
  /\ snd (setOn (unreachable_lamp (TransportError "timeout")) (JBool true))
     = Throw (TransportError "timeout")
  /\ snd (setBrightness (unreachable_lamp (TransportError "timeout")) (JNum (of_Z 50)))
     = Throw (TransportError "timeout").
Proof.
  destruct (transport_error_propagates
              (unreachable_lamp (TransportError "timeout"))
              (TransportError "timeout") (JBool true)) as (Hget & Hon & _).
  destruct (transport_error_propagates
              (unreachable_lamp (TransportError "timeout"))
              (TransportError "timeout") (JNum (of_Z 50))) as (_ & _ & Hbright).
  split; [exact (Hget eq_refl)|].
  split; [rewrite (Hon eq_refl)|rewrite (Hbright (of_Z 50) eq_refl eq_refl)];
    reflexivity.
Defined.

(** C8, as stated, fails: a shadow that reports the brightness 300 is read
    without error, and [getBrightness] returns 118. *)
Lemma getBrightness_not_always_percentage :
  ~ (forall (this : t) (doc : json) (x : float),
       reads this doc -> snd (getBrightness this) = Return x ->
       is_percentage x = true).
Proof.
  intros Hclaim.
  specialize (Hclaim (lamp (shadow [("brightness", JNum (of_Z 300))])) _
                (of_Z 118) (reads_lamp _) eq_refl).
  vm_compute in Hclaim. discriminate.
Qed.

(** C8, amended: when the read succeeds, [reported] is present and
    [reported.brightness] is absent (or falsy in another way) or an integer
    of the native range 0 to 255, [getBrightness] returns an integral
    percentage between 0 and 100. *)
Theorem getBrightness_percentage_in_native_range (this : t) (doc r : json) :
  reads this doc -> reported_subtree doc r ->
  (ToBoolean (member r brightness) = false
   \/ exists n, 0 <= n <= 255 /\ member r brightness = Some (JNum (of_Z n))) ->
  exists x, snd (getBrightness this) = Return x /\ is_percentage x = true.
Proof.
  intros Hread Hrep Hnative.
  rewrite (getBrightness_run this doc r Hread Hrep).
  destruct Hnative as [Hfalsy | (n & Hn & ->)].
  - rewrite (or_else_falsy _ _ Hfalsy).
    exists (of_Z 0). split; [reflexivity | vm_compute; reflexivity].
  - rewrite reported_number. eexists. split; [reflexivity|].
    apply (forallb_range
             (fun n => is_percentage
                         (toPercentage
                            (if ToBoolean (Some (JNum (of_Z n))) then of_Z n else of_Z 0)))
             256).
    + vm_compute; reflexivity.
    + simpl; lia.
Qed.

Lemma getBrightness_percentage_in_native_range_witness :
  exists x,
    snd (getBrightness (lamp (shadow [("light", JStr "on"); ("brightness", JNum (of_Z 200))])))
    = Return x
    /\ is_percentage x = true.
Proof.
  apply (getBrightness_percentage_in_native_range
           (lamp (shadow [("light", JStr "on"); ("brightness", JNum (of_Z 200))])) _ _
           (reads_lamp _) (reported_subtree_shadow _)).
  right. exists 200. split; [lia | reflexivity].
Defined.

(** C9: when the read succeeds but its result has no [state], or a [state]
    without [reported], both [getOn] and [getBrightness] throw a TypeError
    after the read; neither returns [false] or 0. *)
Theorem missing_subtree_throws (this : t) (doc : json) :
  reads this doc ->
  (member doc state = None
   \/ exists st, member doc state = Some st /\ member st reported = None) ->
  getOn this = ([GetThingShadow (get_params this)], Throw TypeError)
  /\ getBrightness this = ([GetThingShadow (get_params this)], Throw TypeError).
Proof.
  intros Hread Hmissing.
  unfold getOn, getBrightness, getThingShadow_promise. rewrite Hread.
  destruct Hmissing as [Hstate | (st & Hstate & Hreported)].
  - destruct doc; cbn in Hstate |- *; try rewrite Hstate; split; reflexivity.
  - destruct doc; try discriminate. cbn in Hstate |- *. rewrite Hstate.
    destruct st; cbn in Hreported |- *; try rewrite Hreported; split; reflexivity.
Qed.

Lemma missing_subtree_throws_witness :
  getOn (lamp (JObj [("state", JObj [])]))
  = ([GetThingShadow {| Get.thingName := "lamp-1" |}], Throw TypeError)
  /\ getBrightness (lamp (JObj [("state", JObj [])]))
     = ([GetThingShadow {| Get.thingName := "lamp-1" |}], Throw TypeError).
Proof.
  apply (missing_subtree_throws (lamp (JObj [("state", JObj [])])) _ (reads_lamp _)).
  right. exists (JObj []). split; reflexivity.
Defined.

(** C10: whenever [reported.brightness] is falsy (absent, 0, [null],
    [false], the empty string), the native value that [getBrightness]
    converts is 0 and it returns 0: an absent brightness and a brightness of
    0 give the same run. *)
Theorem getBrightness_falsy_is_zero (this : t) (doc r : json) :
  reads this doc -> reported_subtree doc r ->
  ToBoolean (member r brightness) = false ->
  or_else (member r brightness) (JNum (of_Z 0)) = JNum (of_Z 0)
  /\ getBrightness this
     = ([GetThingShadow (get_params this);
         LogDebug "Get Characteristic Brightness -> " (JNum (of_Z 0))],
        Return (of_Z 0)).
Proof.
  intros Hread Hrep Hfalsy.
  rewrite (getBrightness_run this doc r Hread Hrep), (or_else_falsy _ _ Hfalsy).
  split; reflexivity.
Qed.

Lemma getBrightness_falsy_is_zero_witness :
  Forall
    (fun b : json =>
       snd (getBrightness (lamp (shadow [("brightness", b)]))) = Return (of_Z 0))
    [JNum (of_Z 0); JNull; JBool false; JStr ""]
  /\ snd (getBrightness (lamp (shadow []))) = Return (of_Z 0).
Proof.
  assert (Hrun : forall members,
             ToBoolean (member (JObj members) brightness) = false ->
             snd (getBrightness (lamp (shadow members))) = Return (of_Z 0)).
  { intros members Hfalsy.
    destruct (getBrightness_falsy_is_zero (lamp (shadow members)) _ _
                (reads_lamp _) (reported_subtree_shadow _) Hfalsy) as [_ ->].
    reflexivity. }
  split; [repeat constructor|]; apply Hrun; reflexivity.
Defined.

(** * Further properties of the handlers *)

(** A property checked on the integers from [lo] up to [lo + n - 1]. *)
Lemma forallb_range_from (P : Z -> bool) (lo : Z) (n : nat) :
  forallb (fun i => P (lo + i)) (range n) = true ->
  forall z, lo <= z < lo + Z.of_nat n -> P z = true.
Proof.
  intros Hall z Hz.
  replace z with (lo + (z - lo)) by lia.
  apply (forallb_range (fun i => P (lo + i)) n Hall). lia.
Qed.

(** X1: a percentage survives the trip through the shadow. If the lamp
    reports the native brightness that [setBrightness(p)] computes, for a
    percentage [p] of 0 to 100, [getBrightness] returns [p]. *)
Theorem brightness_round_trip (this : t) (doc r : json) (p : Z) :
  0 <= p <= 100 ->
  reads this doc -> reported_subtree doc r ->
  member r brightness = Some (JNum (toNative (of_Z p))) ->
  snd (getBrightness this) = Return (of_Z p).
Proof.
  intros Hp Hread Hrep Hsame.
  rewrite (getBrightness_run this doc r Hread Hrep), Hsame, reported_number.
  cbn [snd]. f_equal. apply float_eqb_eq.
  apply (forallb_range
           (fun p => float_eqb
                       (toPercentage
                          (if ToBoolean (Some (JNum (toNative (of_Z p))))
                           then toNative (of_Z p) else of_Z 0))
                       (of_Z p)) 101).
  - vm_compute; reflexivity.
  - simpl; lia.
Qed.

Lemma brightness_round_trip_witness :
  snd (getBrightness
         (lamp (shadow [("brightness", JNum (toNative (of_Z 37)))])))
  = Return (of_Z 37).
Proof.
  apply (brightness_round_trip
           (lamp (shadow [("brightness", JNum (toNative (of_Z 37)))])) _ _ 37
           ltac:(lia) (reads_lamp _) (reported_subtree_shadow _)).
  reflexivity.
Defined.

(** X2: the other way round the trip loses at most one unit. A native
    brightness [n] of 0 to 255, converted to a percentage and back, is [n - 1],
    [n] or [n + 1]; it is not always [n]: 1 comes back as 0. *)
Theorem native_round_trip_within_one (n : Z) :
  0 <= n <= 255 ->
  (exists k, toNative (toPercentage (of_Z n)) = of_Z k
             /\ n - 1 <= k <= n + 1)
  /\ toNative (toPercentage (of_Z 1)) = of_Z 0.
Proof.
  intros Hn. split; [|vm_compute; reflexivity].
  exists (round_half_up (round_half_up (n * 100) 255 * 255) 100).
  pose proof (round_half_up_bounds (n * 100) 255 100 ltac:(lia) ltac:(lia)) as Hpct.
  split.
  - rewrite (toPercentage_exact n Hn). apply toNative_exact. exact Hpct.
  - pose proof (forallb_range
                  (fun n => let k := round_half_up (round_half_up (n * 100) 255 * 255) 100 in
                            (n - 1 <=? k) && (k <=? n + 1)) 256
                  ltac:(vm_compute; reflexivity) n ltac:(simpl; lia)) as Hk.
    cbv zeta in Hk. apply andb_prop in Hk as [Hlo Hhi].
    apply Z.leb_le in Hlo, Hhi. lia.
Qed.

Lemma native_round_trip_within_one_witness :
  (exists k, toNative (toPercentage (of_Z 200)) = of_Z k
             /\ 200 - 1 <= k <= 200 + 1)
  /\ toNative (toPercentage (of_Z 1)) = of_Z 0.
Proof.
  apply (native_round_trip_within_one 200). lia.
Defined.

(** X3: [setBrightness] does not clamp. For an integer [p] from -1000 to
    1000 it makes one write, of the brightness [round(p * 255 / 100)] (halves
    up): more than 255 when [p] is more than 100, negative when [p] is. *)
Theorem setBrightness_out_of_range (this : t) (p : Z) :
  -1000 <= p <= 1000 ->
  shadow_writes (fst (setBrightness this (JNum (of_Z p))))
  = [{| Update.thingName := uniqueId this;
        Update.payload :=
          JSON_stringify
            (desired_state brightness
               (JNum (of_Z (round_half_up (p * 255) 100)))) |}]
  /\ (100 < p -> 255 < round_half_up (p * 255) 100)
  /\ (p < 0 -> round_half_up (p * 255) 100 < 0).
Proof.
  intros Hp. split; [|split].
  - assert (Hexact : toNative (of_Z p) = of_Z (round_half_up (p * 255) 100)).
    { apply float_eqb_eq.
      apply (forallb_range_from
               (fun p => float_eqb (toNative (of_Z p))
                                   (of_Z (round_half_up (p * 255) 100))) (-1000) 2001).
      - vm_compute; reflexivity.
      - simpl; lia. }
    rewrite (setBrightness_writes this (JNum (of_Z p)) (of_Z p) eq_refl).
    unfold setBrightness_params. rewrite Hexact. reflexivity.
  - intros Hbig. unfold round_half_up.
    apply Z.lt_le_trans with (256 * 200 / (2 * 100)); [reflexivity|].
    apply Z.div_le_mono; lia.
  - intros Hneg. unfold round_half_up.
    apply Z.div_lt_upper_bound; lia.
Qed.

Lemma setBrightness_out_of_range_witness :
  shadow_writes (fst (setBrightness (lamp JNull) (JNum (of_Z 200))))
  = [{| Update.thingName := "lamp-1";
        Update.payload :=
          JSON_stringify
            (desired_state brightness
               (JNum (of_Z (round_half_up (200 * 255) 100)))) |}]
  /\ (100 < 200 -> 255 < round_half_up (200 * 255) 100)
  /\ (200 < 0 -> round_half_up (200 * 255) 100 < 0).
Proof.
  apply (setBrightness_out_of_range (lamp JNull) 200). lia.
Defined.

(** X4: for every percentage [p] of 0 to 100, [setBrightness(p)] makes one
    write, and its payload is the text
    [{"state":{"desired":{"brightness":N}}}] with [N] the decimal digits of
    [round(p * 255 / 100)]. *)
Theorem setBrightness_payload_text (this : t) (p : Z) :
  0 <= p <= 100 ->
  shadow_writes (fst (setBrightness this (JNum (of_Z p))))
  = [{| Update.thingName := uniqueId this;
        Update.payload :=
          desired_text "brightness" (decimal (round_half_up (p * 255) 100)) |}].
Proof.
  intros Hp. rewrite (setBrightness_writes this (JNum (of_Z p)) (of_Z p) eq_refl).
  unfold setBrightness_params. do 2 f_equal. apply String.eqb_eq.
  apply (forallb_range
           (fun p => String.eqb
                       (JSON_stringify
                          (desired_state brightness (JNum (toNative (of_Z p)))))
                       (desired_text "brightness"
                          (decimal (round_half_up (p * 255) 100)))) 101).
  - vm_compute; reflexivity.
  - simpl; lia.
Qed.

Lemma setBrightness_payload_text_witness :
  shadow_writes (fst (setBrightness (lamp JNull) (JNum (of_Z 75))))
  = [{| Update.thingName := "lamp-1";
        Update.payload :=
          desired_text "brightness" (decimal (round_half_up (75 * 255) 100)) |}].
Proof.
  apply (setBrightness_payload_text (lamp JNull) 75). lia.
Defined.

(** X5: a value that is not a number is written as [null]. When the value
    converts to the Number NaN (a word, an object without a member named
    [toString]), [setBrightness] makes its one write, with payload
    [{"state":{"desired":{"brightness":null}}}]. *)
Theorem setBrightness_not_a_number (this : t) (value : json) :
  ToNumber value = Some NaN ->
  shadow_writes (fst (setBrightness this value))
  = [{| Update.thingName := uniqueId this;
        Update.payload := desired_text "brightness" "null" |}].
Proof.
  intros Hnan. rewrite (setBrightness_writes this value NaN Hnan). reflexivity.
Qed.

Lemma setBrightness_not_a_number_witness :
  shadow_writes (fst (setBrightness (lamp JNull) (JStr "bright")))
  = [{| Update.thingName := "lamp-1";
        Update.payload := desired_text "brightness" "null" |}].
Proof.
  apply (setBrightness_not_a_number (lamp JNull) (JStr "bright")).
  vm_compute; reflexivity.
Defined.

(** X6: [setOn] goes by truthiness. Whatever the value, it makes exactly one
    write, whose payload is [{"state":{"desired":{"light":"on"}}}] when the
    value is truthy and [{"state":{"desired":{"light":"off"}}}] when it is
    falsy. *)
Theorem setOn_writes_by_truthiness (this : t) (value : json) :
  shadow_writes (fst (setOn this value))
  = [{| Update.thingName := uniqueId this;
        Update.payload :=
          desired_text "light"
            (quoted (if ToBoolean (Some value) then "on" else "off")) |}].
Proof.
  rewrite setOn_writes. unfold setOn_params.
  destruct (ToBoolean (Some value)); reflexivity.
Qed.


(** Case analysis on everything a run branches on. *)
Ltac run_cases :=
  cbn;
  repeat match goal with
         | |- context [lookup ?k ?members] => destruct (lookup k members); cbn
         | |- context [match ?x with _ => _ end] => is_var x; destruct x; cbn
         end.

(** X8: the traffic of each handler. Whatever the transport answers and
    whatever the document holds, [getOn] and [getBrightness] make exactly one
    read and no write, and [setOn] makes exactly one write and no read.
    [setBrightness] makes no read either, and exactly one write when its
    value converts to a Number; when the conversion throws it makes no call
    at all. A setter never looks at the shadow it changes. *)
Theorem handler_traffic (this : t) (value : json) :
  (shadow_reads (fst (getOn this)) = [get_params this]
   /\ shadow_writes (fst (getOn this)) = [])
  /\ (shadow_reads (fst (getBrightness this)) = [get_params this]
      /\ shadow_writes (fst (getBrightness this)) = [])
  /\ (shadow_reads (fst (setOn this value)) = []
      /\ shadow_writes (fst (setOn this value)) = [setOn_params this value])
  /\ (shadow_reads (fst (setBrightness this value)) = []
      /\ shadow_writes (fst (setBrightness this value))
         = match ToNumber value with
           | Some number => [setBrightness_params this (toNative number)]
           | None => []
           end).
Proof.
  split; [|split; [|split]].
  - unfold getOn, getThingShadow_promise, JSON_parse_payload, get, member.
    destruct (getThingShadow _ _) as [[payload]|e]; run_cases; split; reflexivity.
  - unfold getBrightness, getThingShadow_promise, JSON_parse_payload, get, member.
    destruct (getThingShadow _ _) as [[payload]|e]; run_cases;
      try (split; reflexivity);
      match goal with
      | |- context [or_throw ?number] => destruct number; split; reflexivity
      end.
  - rewrite setOn_run. destruct (updateThingShadow _ _); split; reflexivity.
  - destruct (ToNumber value) as [number|] eqn:Hnumber.
    + rewrite (setBrightness_run this value number Hnumber).
      destruct (updateThingShadow _ _); split; reflexivity.
    + rewrite (setBrightness_throws this value Hnumber). split; reflexivity.
Qed.

(** X9: a response that cannot be read is an error, not a default. When the
    read succeeds with a body that is not JSON, [getOn] and [getBrightness]
    throw a SyntaxError; when it succeeds without a payload, they throw a
    TypeError; in both cases right after the read. *)
Theorem unreadable_response_throws (this : t) (body : option document) :
  getThingShadow (iotdata this) (get_params this)
  = Fulfilled {| Get.payload := body |} ->
  (forall doc, body <> Some (WellFormed doc)) ->
  let e := match body with Some _ => SyntaxError | None => TypeError end in
  getOn this = ([GetThingShadow (get_params this)], Throw e)
  /\ getBrightness this = ([GetThingShadow (get_params this)], Throw e).
Proof.
  intros Hread Hbad.
  unfold getOn, getBrightness, getThingShadow_promise. rewrite Hread.
  destruct body as [[|doc]|]; [| exfalso; exact (Hbad doc eq_refl) |];
    split; reflexivity.
Qed.

Lemma unreadable_response_throws_witness :
  getOn {| uniqueId := "lamp-1";
           iotdata := {| getThingShadow := fun _ => Fulfilled {| Get.payload := Some Malformed |};
                         updateThingShadow := fun _ => Fulfilled tt |} |}
  = ([GetThingShadow {| Get.thingName := "lamp-1" |}], Throw SyntaxError).
Proof.
  apply (unreadable_response_throws
           {| uniqueId := "lamp-1";
              iotdata := {| getThingShadow := fun _ => Fulfilled {| Get.payload := Some Malformed |};
                            updateThingShadow := fun _ => Fulfilled tt |} |}
           (Some Malformed) eq_refl).
  intros doc H. discriminate H.
Defined.

(** X10: a brightness reported as text is read as the number. When
    [reported.brightness] is the string of the decimal digits of an integer
    [n] of 0 to 255, [getBrightness] returns [round(n * 100 / 255)], as for
    the number [n]; the string ["0"] is truthy but still gives 0. *)
Theorem getBrightness_of_decimal_string (this : t) (doc r : json) (n : Z) :
  0 <= n <= 255 ->
  reads this doc -> reported_subtree doc r ->
  member r brightness = Some (JStr (decimal n)) ->
  snd (getBrightness this) = Return (of_Z (round_half_up (n * 100) 255)).
Proof.
  intros Hn Hread Hrep Htext.
  rewrite (getBrightness_run this doc r Hread Hrep), Htext, reported_string.
  cbn [snd]. f_equal. apply float_eqb_eq.
  apply (forallb_range
           (fun n => float_eqb
                       (toPercentage
                          (if ToBoolean (Some (JStr (decimal n)))
                           then StringToNumber (decimal n) else of_Z 0))
                       (of_Z (round_half_up (n * 100) 255))) 256).
  - vm_compute; reflexivity.
  - simpl; lia.
Qed.

Lemma getBrightness_of_decimal_string_witness :
  snd (getBrightness (lamp (shadow [("brightness", JStr (decimal 200))])))
  = Return (of_Z (round_half_up (200 * 100) 255)).
Proof.
  apply (getBrightness_of_decimal_string
           (lamp (shadow [("brightness", JStr (decimal 200))])) _ _ 200
           ltac:(lia) (reads_lamp _) (reported_subtree_shadow _)).
  reflexivity.
Defined.

(** X11: a brightness that is not a number comes back as NaN. When
    [reported.brightness] is truthy and converts to the Number NaN (a word,
    an object without a member named [toString]), [getBrightness] does not
    throw and does not fall back to 0: it returns NaN, which is no
    percentage. *)
Theorem getBrightness_not_a_number (this : t) (doc r v : json) :
  reads this doc -> reported_subtree doc r ->
  member r brightness = Some v ->
  ToBoolean (Some v) = true -> ToNumber v = Some NaN ->
  snd (getBrightness this) = Return NaN /\ is_percentage NaN = false.
Proof.
  intros Hread Hrep Hv Htruthy Hnan.
  rewrite (getBrightness_run this doc r Hread Hrep), Hv.
  unfold or_else. rewrite Htruthy, Hnan. split; reflexivity.
Qed.

Lemma getBrightness_not_a_number_witness :
  snd (getBrightness (lamp (shadow [("brightness", JObj [("level", JNum (of_Z 3))])])))
  = Return NaN
  /\ is_percentage NaN = false.
Proof.
  apply (getBrightness_not_a_number
           (lamp (shadow [("brightness", JObj [("level", JNum (of_Z 3))])])) _ _
           (JObj [("level", JNum (of_Z 3))])
           (reads_lamp _) (reported_subtree_shadow _));
    vm_compute; reflexivity.
Defined.

(** X12: [getBrightness] does not clamp. For a reported brightness [n] from
    257 to 2000 it returns [round(n * 100 / 255)], which is more than 100. *)
Theorem getBrightness_above_native_range (this : t) (doc r : json) (n : Z) :
  257 <= n <= 2000 ->
  reads this doc -> reported_subtree doc r ->
  member r brightness = Some (JNum (of_Z n)) ->
  snd (getBrightness this) = Return (of_Z (round_half_up (n * 100) 255))
  /\ 100 < round_half_up (n * 100) 255.
Proof.
  intros Hn Hread Hrep Hbig. split.
  - rewrite (getBrightness_run this doc r Hread Hrep), Hbig, reported_number.
    cbn [snd]. f_equal. apply float_eqb_eq.
    apply (forallb_range_from
             (fun n => float_eqb
                         (toPercentage
                            (if ToBoolean (Some (JNum (of_Z n))) then of_Z n else of_Z 0))
                         (of_Z (round_half_up (n * 100) 255))) 257 1744).
    + vm_compute; reflexivity.
    + simpl; lia.
  - unfold round_half_up.
    apply Z.lt_le_trans with ((2 * (257 * 100) + 255) / (2 * 255)); [reflexivity|].
    apply Z.div_le_mono; lia.
Qed.

Lemma getBrightness_above_native_range_witness :
  snd (getBrightness (lamp (shadow [("brightness", JNum (of_Z 510))])))
  = Return (of_Z (round_half_up (510 * 100) 255))
  /\ 100 < round_half_up (510 * 100) 255.
Proof.
  apply (getBrightness_above_native_range
           (lamp (shadow [("brightness", JNum (of_Z 510))])) _ _ 510
           ltac:(lia) (reads_lamp _) (reported_subtree_shadow _)).
  reflexivity.
Defined.

(** X13: the power survives the trip through the shadow. If the lamp reports
    the [light] that [setOn(value)] writes, [getOn] returns the truthiness of
    the value. *)
Theorem power_round_trip (this : t) (doc r value : json) :
  reads this doc -> reported_subtree doc r ->
  member r light = Some (JStr (if ToBoolean (Some value) then "on" else "off")) ->
  snd (getOn this) = Return (ToBoolean (Some value)).
Proof.
  intros Hread Hrep Hsame.
  rewrite (getOn_run this doc r Hread Hrep), Hsame.
  destruct (ToBoolean (Some value)); reflexivity.
Qed.

Lemma power_round_trip_witness :
  snd (getOn (lamp (shadow [("light", JStr "off")]))) = Return (ToBoolean (Some (JNum (of_Z 0)))).
Proof.
  exact (power_round_trip (lamp (shadow [("light", JStr "off")])) _ _ (JNum (of_Z 0))
           (reads_lamp _) (reported_subtree_shadow _) eq_refl).
Defined.

(** X14: the getters look at [reported] only. Two reads whose documents
    agree on [reported.light] give [getOn] the same outcome, and two that
    agree on [reported.brightness] give [getBrightness] the same outcome,
    whatever else the documents hold ([desired] among it). *)
Theorem getters_depend_on_reported_only (this this' : t) (doc doc' r r' : json) :
  reads this doc -> reported_subtree doc r ->
  reads this' doc' -> reported_subtree doc' r' ->
  (member r light = member r' light -> snd (getOn this) = snd (getOn this'))
  /\ (member r brightness = member r' brightness ->
      snd (getBrightness this) = snd (getBrightness this')).
Proof.
  intros Hread Hrep Hread' Hrep'.
  rewrite (getOn_run this doc r Hread Hrep), (getOn_run this' doc' r' Hread' Hrep').
  rewrite (getBrightness_run this doc r Hread Hrep),
    (getBrightness_run this' doc' r' Hread' Hrep').
  split; intros ->; [reflexivity|].
  destruct (ToNumber _); reflexivity.
Qed.

Lemma getters_depend_on_reported_only_witness :
  snd (getOn (lamp (shadow [("light", JStr "on")])))
  = snd (getOn (lamp (JObj [("state",
                             JObj [("desired", JObj [("light", JStr "off")]);
                                   ("reported", JObj [("light", JStr "on")])])]))).
Proof.
  apply (getters_depend_on_reported_only
           (lamp (shadow [("light", JStr "on")]))
           (lamp (JObj [("state",
                         JObj [("desired", JObj [("light", JStr "off")]);
                               ("reported", JObj [("light", JStr "on")])])]))
           _ _ (JObj [("light", JStr "on")]) (JObj [("light", JStr "on")])
           (reads_lamp _) (reported_subtree_shadow _) (reads_lamp _)).
  - exists (JObj [("desired", JObj [("light", JStr "off")]);
                  ("reported", JObj [("light", JStr "on")])]).
    repeat split. discriminate.
  - reflexivity.
Defined.

(** X19: a value that cannot be converted stops [setBrightness] at once.
    For an object with a member named [toString], the division throws a
    TypeError before the debug line and before the write: the handler throws
    it and has called nothing. *)
Theorem setBrightness_unconvertible (this : t) (members : list (string * json)) :
  has_own "toString" members = true ->
  setBrightness this (JObj members) = ([], Throw TypeError).
Proof.
  intros Hown. apply setBrightness_throws. cbn. rewrite Hown. reflexivity.
Qed.

Lemma setBrightness_unconvertible_witness :
  setBrightness (lamp JNull) (JObj [("toString", JStr "50")]) = ([], Throw TypeError).
Proof.
  exact (setBrightness_unconvertible (lamp JNull) [("toString", JStr "50")] eq_refl).
Defined.

(** X20: a reported brightness that cannot be converted makes
    [getBrightness] throw. When [reported.brightness] is an object with a
    member named [toString], the division throws a TypeError after the read
    and before the debug line; no value is returned. *)
Theorem getBrightness_unconvertible (this : t) (doc r : json)
  (members : list (string * json)) :
  reads this doc -> reported_subtree doc r ->
  member r brightness = Some (JObj members) ->
  has_own "toString" members = true ->
  getBrightness this = ([GetThingShadow (get_params this)], Throw TypeError).
Proof.
  intros Hread Hrep Hobject Hown.
  rewrite (getBrightness_run this doc r Hread Hrep), Hobject. cbn.
  rewrite Hown. reflexivity.
Qed.

Lemma getBrightness_unconvertible_witness :
  getBrightness (lamp (shadow [("brightness", JObj [("toString", JNum (of_Z 1))])]))
  = ([GetThingShadow {| Get.thingName := "lamp-1" |}], Throw TypeError).
Proof.
  exact (getBrightness_unconvertible
           (lamp (shadow [("brightness", JObj [("toString", JNum (of_Z 1))])])) _ _
           [("toString", JNum (of_Z 1))]
           (reads_lamp _) (reported_subtree_shadow _) eq_refl eq_refl).
Defined.

(** * Properties of the constructor *)

Import Homebridge.

(** Case analysis on the answers of the host. *)
Ltac host_cases :=
  cbn;
  repeat match goal with
         | |- context [match ?answer with Return _ => _ | Throw _ => _ end] =>
             destruct answer eqn:?; cbn
         | |- context [match ?x with Some _ => _ | None => _ end] =>
             destruct x eqn:?; cbn
         end.

Lemma fluent_accessory_with (services : list Service) : fluent (accessory_with services).
Proof. repeat split; cbn; congruence. Qed.

(** X15: an accessory without the AccessoryInformation service cannot be
    constructed. The constructor throws a TypeError right after looking the
    service up: no service is added, no characteristic set, no handler
    registered. *)
Theorem constructor_without_information (host : Host) (displayName : json) :
  getService host AccessoryInformation = Return None ->
  constructor host displayName = ([GetService AccessoryInformation], Throw TypeError).
Proof.
  intros Hmissing. unfold constructor, call. rewrite Hmissing. reflexivity.
Qed.

Lemma constructor_without_information_witness :
  constructor (accessory_with [Lightbulb]) (JStr "Desk lamp")
  = ([GetService AccessoryInformation], Throw TypeError).
Proof.
  exact (constructor_without_information (accessory_with [Lightbulb]) (JStr "Desk lamp")
           eq_refl).
Defined.

(** X16: the Lightbulb service is added only when the accessory has none.
    If the accessory has one, no run of the constructor adds a service, and
    a run that returns has taken that one as [this.service]; if it has none,
    a run that returns has added exactly the Lightbulb service and taken the
    new service as [this.service]. *)
Theorem constructor_reuses_lightbulb (host : Host) (displayName : json) :
  (forall s, getService host Lightbulb = Return (Some s) ->
             added_services (fst (constructor host displayName)) = []
             /\ (forall s', snd (constructor host displayName) = Return s' -> s' = s))
  /\ (getService host Lightbulb = Return None ->
      forall s', snd (constructor host displayName) = Return s' ->
                 added_services (fst (constructor host displayName)) = [Lightbulb]
                 /\ addService host Lightbulb = Return s').
Proof.
  split.
  - intros s Hfound. unfold constructor, call, defined.
    destruct (getService host AccessoryInformation) as [[information|]|e]; cbn;
      [|split; [reflexivity|discriminate]..].
    destruct (setCharacteristic host information _ _); cbn;
      [|split; [reflexivity|discriminate]].
    rewrite Hfound. host_cases;
      (split; [reflexivity | intros s' H; try discriminate H; congruence]).
  - intros Hmissing s'. unfold constructor, call, defined.
    destruct (getService host AccessoryInformation) as [[information|]|e]; cbn;
      try discriminate.
    destruct (setCharacteristic host information _ _); cbn; try discriminate.
    rewrite Hmissing. host_cases; intros H; try discriminate H.
    split; [reflexivity | congruence].
Qed.

Lemma constructor_reuses_lightbulb_witness :
  (added_services
     (fst (constructor (accessory_with [AccessoryInformation; Lightbulb]) (JStr "Desk lamp")))
   = []
   /\ snd (constructor (accessory_with [AccessoryInformation; Lightbulb]) (JStr "Desk lamp"))
      = Return 1%nat)
  /\ added_services
       (fst (constructor (accessory_with [AccessoryInformation]) (JStr "Desk lamp")))
     = [Lightbulb].
Proof.
  destruct (constructor_reuses_lightbulb
              (accessory_with [AccessoryInformation; Lightbulb]) (JStr "Desk lamp"))
    as [Hreuse _].
  destruct (constructor_reuses_lightbulb
              (accessory_with [AccessoryInformation]) (JStr "Desk lamp"))
    as [_ Hadd].
  split.
  - split; [exact (proj1 (Hreuse 1%nat eq_refl)) | reflexivity].
  - exact (proj1 (Hadd eq_refl 1%nat eq_refl)).
Defined.

(** X17: the handlers are registered on the right characteristics. On a host
    whose chained methods answer with their receiver, a run of the
    constructor that returns service [s] has registered exactly four
    handlers, in this order: [setOn] then [getOn] on the On characteristic of
    [s], [setBrightness] then [getBrightness] on its Brightness
    characteristic. *)
Theorem constructor_registers_handlers (host : Host) (displayName : json) (s : service) :
  fluent host ->
  snd (constructor host displayName) = Return s ->
  exists on bright,
    getCharacteristic host s On = Return on
    /\ getCharacteristic host s Brightness = Return bright
    /\ registrations (fst (constructor host displayName))
       = [OnSet on bound_setOn; OnGet on bound_getOn;
          OnSet bright bound_setBrightness; OnGet bright bound_getBrightness].
Proof.
  intros (_ & HonSet & _). unfold constructor, call, defined.
  destruct (getService host AccessoryInformation) as [[information|]|e]; cbn;
    try discriminate.
  destruct (setCharacteristic host information _ _); cbn; try discriminate.
  destruct (getService host Lightbulb) as [[found|]|e]; cbn; try discriminate.
  - destruct (setCharacteristic host found _ _); cbn; try discriminate.
    destruct (getCharacteristic host found On) as [on|] eqn:Hon; cbn; try discriminate.
    destruct (onSet host on _) as [on'|] eqn:Hon'; cbn; try discriminate.
    apply HonSet in Hon'. subst on'.
    destruct (onGet host on _); cbn; try discriminate.
    destruct (getCharacteristic host found Brightness) as [bright|] eqn:Hbright; cbn;
      try discriminate.
    destruct (onSet host bright _) as [bright'|] eqn:Hbright'; cbn; try discriminate.
    apply HonSet in Hbright'. subst bright'.
    destruct (onGet host bright _); cbn; try discriminate.
    intros H. injection H as <-. exists on, bright. repeat split; assumption.
  - destruct (addService host Lightbulb) as [added|]; cbn; try discriminate.
    destruct (setCharacteristic host added _ _); cbn; try discriminate.
    destruct (getCharacteristic host added On) as [on|] eqn:Hon; cbn; try discriminate.
    destruct (onSet host on _) as [on'|] eqn:Hon'; cbn; try discriminate.
    apply HonSet in Hon'. subst on'.
    destruct (onGet host on _); cbn; try discriminate.
    destruct (getCharacteristic host added Brightness) as [bright|] eqn:Hbright; cbn;
      try discriminate.
    destruct (onSet host bright _) as [bright'|] eqn:Hbright'; cbn; try discriminate.
    apply HonSet in Hbright'. subst bright'.
    destruct (onGet host bright _); cbn; try discriminate.
    intros H. injection H as <-. exists on, bright. repeat split; assumption.
Qed.

Lemma constructor_registers_handlers_witness :
  exists on bright,
    getCharacteristic (accessory_with [AccessoryInformation]) 1%nat On = Return on
    /\ getCharacteristic (accessory_with [AccessoryInformation]) 1%nat Brightness
       = Return bright
    /\ registrations
         (fst (constructor (accessory_with [AccessoryInformation]) (JStr "Desk lamp")))
       = [OnSet on bound_setOn; OnGet on bound_getOn;
          OnSet bright bound_setBrightness; OnGet bright bound_getBrightness].
Proof.
  exact (constructor_registers_handlers
           (accessory_with [AccessoryInformation]) (JStr "Desk lamp") 1%nat
           (fluent_accessory_with _) eq_refl).
Defined.

(** X18: what the constructor sets. A run that returns service [s] has set
    exactly two characteristics, in this order: the Manufacturer of the
    AccessoryInformation service to ["Neopixel"], and the Name of [s] to the
    display name of the device. *)
Theorem constructor_settings (host : Host) (displayName : json) (s : service) :
  snd (constructor host displayName) = Return s ->
  exists information,
    getService host AccessoryInformation = Return (Some information)
    /\ settings (fst (constructor host displayName))
       = [SetCharacteristic information Manufacturer (JStr "Neopixel");
          SetCharacteristic s Name displayName].
Proof.
  unfold constructor, call, defined.
  destruct (getService host AccessoryInformation) as [[information|]|e]; cbn;
    try discriminate.
  destruct (setCharacteristic host information _ _); cbn; try discriminate.
  destruct (getService host Lightbulb) as [[found|]|e]; cbn; try discriminate.
  - host_cases; intros H; try discriminate H. injection H as <-.
    exists information. split; reflexivity.
  - destruct (addService host Lightbulb) as [added|]; cbn; try discriminate.
    host_cases; intros H; try discriminate H. injection H as <-.
    exists information. split; reflexivity.
Qed.

Lemma constructor_settings_witness :
  exists information,
    getService (accessory_with [AccessoryInformation; Lightbulb]) AccessoryInformation
    = Return (Some information)
    /\ settings
         (fst (constructor (accessory_with [AccessoryInformation; Lightbulb])
                 (JStr "Desk lamp")))
       = [SetCharacteristic information Manufacturer (JStr "Neopixel");
          SetCharacteristic 1%nat Name (JStr "Desk lamp")].
Proof.
  exact (constructor_settings
           (accessory_with [AccessoryInformation; Lightbulb]) (JStr "Desk lamp") 1%nat
           eq_refl).
Defined.
